(** * The submission orchestrator of the Terms Transparency Tracker front end

    A shallow embedding of the event handlers of [frontend/src/App.tsx]
    ([handleFileChange], [simulateUpload], [handleDrop], [handleAnalyze],
    [handleClear], [togglePlayPause]) and of the response normalisation
    inside [handleAnalyze], followed by the properties of the orchestrator.

    Conventions of the embedding.
    - A JavaScript string is a sequence of UTF-16 code units.  The model
      covers the strings whose code units are below 256: one [ascii] is one
      code unit U+0000..U+00FF, and [trim] and [toLowerCase] are the
      ECMAScript functions restricted to that range.
    - A value produced by [response.json()] is a [value]; numbers are IEEE
      doubles ([spec_float]), of which the code only tests truthiness.
    - A handler is a computation in the monad [M]: it threads the browser
      side of the world (React state, the audio element behind [audioRef],
      the blob URL store, interval timers, and the trace of outward effects)
      and may throw.  The values a handler reads from React state are those
      of the render that created it, so a handler that reads state takes
      that render's state [r] as an argument. *)

From Stdlib Require Import String Ascii List ZArith NArith Bool Lia.
From Stdlib Require Import Floats.SpecFloat DecimalString.
Import ListNotations.
Local Open Scope string_scope.
Local Open Scope list_scope.

(** ** JavaScript strings *)

Module JsString.

Definition code (c : ascii) : N := N_of_ascii c.

(** WhiteSpace and LineTerminator code points below 256: TAB, LF, VT, FF,
    CR, SP and NBSP. *)
Definition is_whitespace (c : ascii) : bool :=
  let n := code c in
  ((9 <=? n) && (n <=? 13) || (n =? 32) || (n =? 160))%N.

Fixpoint trimStart (s : string) : string :=
  match s with
  | EmptyString => EmptyString
  | String c s' => if is_whitespace c then trimStart s' else s
  end.

Fixpoint trimEnd (s : string) : string :=
  match s with
  | EmptyString => EmptyString
  | String c s' =>
      match trimEnd s' with
      | EmptyString => if is_whitespace c then EmptyString else String c EmptyString
      | t => String c t
      end
  end.

(** [String.prototype.trim] *)
Definition trim (s : string) : string := trimEnd (trimStart s).

(** Simple lower-case mapping of one code unit: A-Z, and the Latin-1
    capitals U+00C0..U+00DE except the multiplication sign U+00D7. *)
Definition lower (c : ascii) : ascii :=
  let n := code c in
  if ((65 <=? n) && (n <=? 90)
      || (192 <=? n) && (n <=? 222) && negb (n =? 215))%N
  then ascii_of_N (n + 32) else c.

(** [String.prototype.toLowerCase] *)
Fixpoint toLowerCase (s : string) : string :=
  match s with
  | EmptyString => EmptyString
  | String c s' => String (lower c) (toLowerCase s')
  end.

(** [String(n)] for a non-negative integer [n] *)
Definition ofNat (n : nat) : string :=
  NilEmpty.string_of_uint (Nat.to_uint n).

(** ToBoolean on a string: only the empty string is falsy. *)
Definition nonEmpty (s : string) : bool :=
  match s with EmptyString => false | String _ _ => true end.

Fixpoint all_whitespace (s : string) : bool :=
  match s with
  | EmptyString => true
  | String c s' => is_whitespace c && all_whitespace s'
  end.

End JsString.
Import JsString.

(** ** Exceptions and results *)

Inductive exn : Type :=
| Error (message : string)  (* [new Error(message)] thrown by the handler *)
| TypeError                 (* property read on null, call of a non-function,
                               rejected [fetch] or body read *)
| SyntaxError.              (* [response.json()] on a body that is not JSON *)

Inductive result (A : Type) : Type :=
| Return (a : A)
| Throw (e : exn).
Arguments Return {A} a.
Arguments Throw {A} e.

Definition isThrow {A} (r : result A) : bool :=
  match r with Return _ => false | Throw _ => true end.

Definition rbind {A B} (r : result A) (k : A -> result B) : result B :=
  match r with
  | Return a => k a
  | Throw e => Throw e
  end.

Notation "'let?' x ':=' e 'in' k" := (rbind e (fun x => k))
  (at level 10, x name, e at level 100, k at level 200).

(** ** Values returned by [response.json()] *)

Definition number : Type := spec_float.

#[local] Set Warnings "-register-all".

Inductive value : Type :=
| JUndefined
| JNull
| JBool (b : bool)
| JNumber (x : number)
| JString (s : string)
| JArray (items : list value)
| JObject (members : list (string * value)).

(** ToBoolean: [undefined], [null], [false], [+0], [-0], [NaN] and the empty
    string are falsy, every array and object is truthy. *)
Definition truthy (v : value) : bool :=
  match v with
  | JUndefined | JNull => false
  | JBool b => b
  | JNumber (S754_zero _) | JNumber S754_nan => false
  | JNumber _ => true
  | JString s => nonEmpty s
  | JArray _ | JObject _ => true
  end.

Fixpoint lookup (k : string) (members : list (string * value)) : value :=
  match members with
  | [] => JUndefined
  | (k', v) :: rest => if String.eqb k k' then v else lookup k rest
  end.

(** The property read [v.k], for the keys the handler reads ([clauses], [id],
    [text], [clause_text], [risk_level], [severity], [explanation],
    [reason]): none of them is defined on a built-in prototype, so a
    primitive or an array answers [undefined], an object answers its own
    member, and [null] and [undefined] throw. *)
Definition get (v : value) (k : string) : result value :=
  match v with
  | JUndefined | JNull => Throw TypeError
  | JObject members => Return (lookup k members)
  | _ => Return JUndefined
  end.

(** [a || b], with [b] evaluated only when [a] is falsy. *)
Definition or_else (a b : result value) : result value :=
  let? x := a in if truthy x then Return x else b.

Notation "a '<||>' b" := (or_else a b) (at level 55, left associativity).

(** The method call [v.toLowerCase()] on a truthy [v]: only a string has a
    callable [toLowerCase]. *)
Definition call_toLowerCase (v : value) : result string :=
  match v with
  | JString s => Return (toLowerCase s)
  | _ => Throw TypeError
  end.

(** ** The data model of the component *)

Record Clause : Type := {
  id : value;
  text : value;
  riskLevel : string;
  explanation : value }.

Record File : Type := {
  name : string;
  size : N;
  type : string }.

Record Blob : Type := {
  blobType : string;
  blobBytes : string }.

(** The callback of [data.clauses?.map] (App.tsx lines 143-148). *)
Definition transformClause (clause : value) (index : nat) : result Clause :=
  let? id_ := get clause "id" <||> Return (JString (ofNat (index + 1))) in
  let? text_ := get clause "text" <||> get clause "clause_text"
                  <||> Return (JString "") in
  let? level := get clause "risk_level" <||> get clause "severity"
                  <||> Return (JString "medium") in
  let? riskLevel_ := call_toLowerCase level in
  let? explanation_ := get clause "explanation" <||> get clause "reason"
                         <||> Return (JString "") in
  Return {| id := id_; text := text_; riskLevel := riskLevel_;
            explanation := explanation_ |}.

(** [Array.prototype.map] with a callback that may throw; [index] is the
    position of the head of [items]. *)
Fixpoint mapFrom (index : nat) (items : list value) : result (list Clause) :=
  match items with
  | [] => Return []
  | clause :: rest =>
      let? c := transformClause clause index in
      let? cs := mapFrom (S index) rest in
      Return (c :: cs)
  end.

(** [data.clauses?.map(...) || []]: a null or undefined [clauses] short-cuts
    to [undefined] and then to the empty array, an array is mapped (and is
    truthy even when empty), anything else has no callable [map]. *)
Definition transformResults (data : value) : result (list Clause) :=
  let? clauses := get data "clauses" in
  match clauses with
  | JUndefined | JNull => Return []
  | JArray items => mapFrom 0 items
  | _ => Throw TypeError
  end.

(** ** React state of [App] *)

Record AppState : Type := {
  selectedFile : option File;
  pastedText : string;
  isAnalyzing : bool;
  results : list Clause;
  uploadProgress : Z;
  activeTab : string;
  isDragging : bool;
  podcastMode : bool;
  audioUrl : option string;
  isPlaying : bool }.

(** The state of the first render: the arguments of the [useState] calls. *)
Definition initialState : AppState := {|
  selectedFile := None;
  pastedText := "";
  isAnalyzing := false;
  results := [];
  uploadProgress := 0;
  activeTab := "upload";
  isDragging := false;
  podcastMode := false;
  audioUrl := None;
  isPlaying := false |}.

(** ** The browser around the component *)

(** The [<audio>] element behind [audioRef], present while it is mounted. *)
Record HTMLAudioElement : Type := {
  src : string;
  paused : bool;
  currentTime : number }.

Inductive RequestBody : Type :=
| FormData (entries : list (string * File))  (* multipart form *)
| JsonText (v : value).                      (* [JSON.stringify(v)] *)

Record Request : Type := {
  url : string;
  method : string;
  headers : list (string * string);
  body : RequestBody }.

Record Response : Type := {
  status : N;
  statusText : string;
  jsonBody : option value;   (* [None]: the body does not parse as JSON *)
  blobBody : option Blob }.  (* [None]: reading the body fails *)

(** [response.ok] *)
Definition ok (r : Response) : bool :=
  ((200 <=? status r) && (status r <=? 299))%N.

(** A settled promise. *)
Definition promise (A : Type) : Type := result A.

(** Effects visible outside the component, in the order they happen.
    [EvSuspend s] marks an [await]: the handler yields and the page shows
    the state [s] until the awaited promise settles. *)
Inductive Event : Type :=
| EvFetch (req : Request)
| EvSuspend (s : AppState)
| EvConsoleError (message : string) (e : exn)
| EvAlert (message : string)
| EvPreventDefault.

Record World : Type := {
  state : AppState;
  audioRef : option HTMLAudioElement;
  objectURLs : list (string * Blob);  (* the blob URL store *)
  intervals : list nat;               (* active interval timers *)
  nextTimer : nat;
  trace : list Event }.

Definition withState (f : AppState -> AppState) (w : World) : World :=
  {| state := f (state w); audioRef := audioRef w;
     objectURLs := objectURLs w; intervals := intervals w;
     nextTimer := nextTimer w; trace := trace w |}.

Definition withAudio (f : HTMLAudioElement -> HTMLAudioElement)
    (w : World) : World :=
  {| state := state w; audioRef := option_map f (audioRef w);
     objectURLs := objectURLs w; intervals := intervals w;
     nextTimer := nextTimer w; trace := trace w |}.

Definition emit (e : Event) (w : World) : World :=
  {| state := state w; audioRef := audioRef w;
     objectURLs := objectURLs w; intervals := intervals w;
     nextTimer := nextTimer w; trace := trace w ++ [e] |}.

(** ** The handler monad: world passing with exceptions *)

Definition M (A : Type) : Type := World -> result A * World.

Definition ret {A} (a : A) : M A := fun w => (Return a, w).

Definition throw {A} (e : exn) : M A := fun w => (Throw e, w).

Definition bind {A B} (m : M A) (k : A -> M B) : M B :=
  fun w =>
    match m w with
    | (Return a, w') => k a w'
    | (Throw e, w') => (Throw e, w')
    end.

Notation "x <- m ;; k" := (bind m (fun x => k))
  (at level 61, m at next level, right associativity).
Notation "m ;; k" := (bind m (fun _ => k))
  (at level 61, right associativity).

(** [try { body } catch (error) { handler } finally { fin }] *)
Definition try_catch_finally {A} (body : M A) (handler : exn -> M A)
    (fin : M unit) : M A :=
  fun w =>
    let (r, w1) := body w in
    let (r', w2) := match r with
                    | Return a => (Return a, w1)
                    | Throw e => handler e w1
                    end in
    match fin w2 with
    | (Return _, w3) => (r', w3)
    | (Throw e, w3) => (Throw e, w3)
    end.

(** [await p] *)
Definition await {A} (p : promise A) : M A :=
  fun w => (p, emit (EvSuspend (state w)) w).

Definition console_error (message : string) (e : exn) : M unit :=
  fun w => (Return tt, emit (EvConsoleError message e) w).

Definition alert (message : string) : M unit :=
  fun w => (Return tt, emit (EvAlert message) w).

Definition preventDefault : M unit :=
  fun w => (Return tt, emit EvPreventDefault w).

(** *** State setters returned by [useState] *)

Definition update (f : AppState -> AppState) : M unit :=
  fun w => (Return tt, withState f w).

(** The state with one variable replaced. *)

Definition with_selectedFile (v : option File) (s : AppState) : AppState :=
  {| selectedFile := v; pastedText := pastedText s;
     isAnalyzing := isAnalyzing s; results := results s;
     uploadProgress := uploadProgress s; activeTab := activeTab s;
     isDragging := isDragging s; podcastMode := podcastMode s;
     audioUrl := audioUrl s; isPlaying := isPlaying s |}.

Definition with_pastedText (v : string) (s : AppState) : AppState :=
  {| selectedFile := selectedFile s; pastedText := v;
     isAnalyzing := isAnalyzing s; results := results s;
     uploadProgress := uploadProgress s; activeTab := activeTab s;
     isDragging := isDragging s; podcastMode := podcastMode s;
     audioUrl := audioUrl s; isPlaying := isPlaying s |}.

Definition with_isAnalyzing (v : bool) (s : AppState) : AppState :=
  {| selectedFile := selectedFile s; pastedText := pastedText s;
     isAnalyzing := v; results := results s;
     uploadProgress := uploadProgress s; activeTab := activeTab s;
     isDragging := isDragging s; podcastMode := podcastMode s;
     audioUrl := audioUrl s; isPlaying := isPlaying s |}.

Definition with_results (v : list Clause) (s : AppState) : AppState :=
  {| selectedFile := selectedFile s; pastedText := pastedText s;
     isAnalyzing := isAnalyzing s; results := v;
     uploadProgress := uploadProgress s; activeTab := activeTab s;
     isDragging := isDragging s; podcastMode := podcastMode s;
     audioUrl := audioUrl s; isPlaying := isPlaying s |}.

Definition with_uploadProgress (v : Z) (s : AppState) : AppState :=
  {| selectedFile := selectedFile s; pastedText := pastedText s;
     isAnalyzing := isAnalyzing s; results := results s;
     uploadProgress := v; activeTab := activeTab s;
     isDragging := isDragging s; podcastMode := podcastMode s;
     audioUrl := audioUrl s; isPlaying := isPlaying s |}.

Definition with_activeTab (v : string) (s : AppState) : AppState :=
  {| selectedFile := selectedFile s; pastedText := pastedText s;
     isAnalyzing := isAnalyzing s; results := results s;
     uploadProgress := uploadProgress s; activeTab := v;
     isDragging := isDragging s; podcastMode := podcastMode s;
     audioUrl := audioUrl s; isPlaying := isPlaying s |}.

Definition with_isDragging (v : bool) (s : AppState) : AppState :=
  {| selectedFile := selectedFile s; pastedText := pastedText s;
     isAnalyzing := isAnalyzing s; results := results s;
     uploadProgress := uploadProgress s; activeTab := activeTab s;
     isDragging := v; podcastMode := podcastMode s;
     audioUrl := audioUrl s; isPlaying := isPlaying s |}.

Definition with_podcastMode (v : bool) (s : AppState) : AppState :=
  {| selectedFile := selectedFile s; pastedText := pastedText s;
     isAnalyzing := isAnalyzing s; results := results s;
     uploadProgress := uploadProgress s; activeTab := activeTab s;
     isDragging := isDragging s; podcastMode := v;
     audioUrl := audioUrl s; isPlaying := isPlaying s |}.

Definition with_audioUrl (v : option string) (s : AppState) : AppState :=
  {| selectedFile := selectedFile s; pastedText := pastedText s;
     isAnalyzing := isAnalyzing s; results := results s;
     uploadProgress := uploadProgress s; activeTab := activeTab s;
     isDragging := isDragging s; podcastMode := podcastMode s;
     audioUrl := v; isPlaying := isPlaying s |}.

Definition with_isPlaying (v : bool) (s : AppState) : AppState :=
  {| selectedFile := selectedFile s; pastedText := pastedText s;
     isAnalyzing := isAnalyzing s; results := results s;
     uploadProgress := uploadProgress s; activeTab := activeTab s;
     isDragging := isDragging s; podcastMode := podcastMode s;
     audioUrl := audioUrl s; isPlaying := v |}.

(** The setters; [setUploadProgress] is also called with an updater
    function of the previous value ([setUploadProgressBy]). *)

Definition setSelectedFile (v : option File) : M unit := update (with_selectedFile v).

Definition setPastedText (v : string) : M unit := update (with_pastedText v).

Definition setIsAnalyzing (v : bool) : M unit := update (with_isAnalyzing v).

Definition setResults (v : list Clause) : M unit := update (with_results v).

Definition setUploadProgress (v : Z) : M unit := update (with_uploadProgress v).

Definition setActiveTab (v : string) : M unit := update (with_activeTab v).

Definition setIsDragging (v : bool) : M unit := update (with_isDragging v).

Definition setPodcastMode (v : bool) : M unit := update (with_podcastMode v).

Definition setAudioUrl (v : option string) : M unit := update (with_audioUrl v).

Definition setIsPlaying (v : bool) : M unit := update (with_isPlaying v).

Definition setUploadProgressBy (f : Z -> Z) : M unit :=
  update (fun s => with_uploadProgress (f (uploadProgress s)) s).

(** *** Browser services used by the handlers *)

Definition isSome {A} (o : option A) : bool :=
  match o with Some _ => true | None => false end.

(** [URL.createObjectURL(blob)]: a fresh URL is entered in the blob URL
    store; the entry stays until [URL.revokeObjectURL], which the component
    never calls. *)
Definition createObjectURL (blob : Blob) : M string :=
  fun w =>
    let u := ("blob:" ++ ofNat (length (objectURLs w)))%string in
    (Return u,
     {| state := state w; audioRef := audioRef w;
        objectURLs := (u, blob) :: objectURLs w; intervals := intervals w;
        nextTimer := nextTimer w; trace := trace w |}).

(** [setInterval(callback, 100)]; the callback is [intervalTick] below. *)
Definition setInterval : M nat :=
  fun w =>
    (Return (nextTimer w),
     {| state := state w; audioRef := audioRef w;
        objectURLs := objectURLs w;
        intervals := nextTimer w :: intervals w;
        nextTimer := S (nextTimer w); trace := trace w |}).

Definition clearInterval (interval : nat) : M unit :=
  fun w =>
    (Return tt,
     {| state := state w; audioRef := audioRef w;
        objectURLs := objectURLs w;
        intervals := filter (fun i => negb (Nat.eqb i interval)) (intervals w);
        nextTimer := nextTimer w; trace := trace w |}).

(** [if (audioRef.current) { m }] *)
Definition ifAudio (m : M unit) : M unit :=
  fun w => match audioRef w with
           | Some _ => m w
           | None => (Return tt, w)
           end.

Definition audio_pause : M unit :=
  fun w => (Return tt,
            withAudio (fun a => {| src := src a; paused := true;
                                   currentTime := currentTime a |}) w).

Definition audio_play : M unit :=
  fun w => (Return tt,
            withAudio (fun a => {| src := src a; paused := false;
                                   currentTime := currentTime a |}) w).

Definition audio_setCurrentTime (t : number) : M unit :=
  fun w => (Return tt,
            withAudio (fun a => {| src := src a; paused := paused a;
                                   currentTime := t |}) w).

(** [response.blob()] and [response.json()] *)
Definition blob (r : Response) : promise Blob :=
  match blobBody r with
  | Some b => Return b
  | None => Throw TypeError
  end.

Definition json (r : Response) : promise value :=
  match jsonBody r with
  | Some v => Return v
  | None => Throw SyntaxError
  end.

Definition liftResult {A} (r : result A) : M A := fun w => (r, w).

(** ** The handlers of [App] *)

Record DragEvent : Type := { dataTransfer_files : list File }.

(** [e.target.files] is a FileList or null. *)
Record ChangeEvent : Type := { target_files : option (list File) }.

Definition API_BASE_URL : string := "http://localhost:8000".

Definition pdf_type : string := "application/pdf".
Definition docx_type : string :=
  "application/vnd.openxmlformats-officedocument.wordprocessingml.document".
Definition plain_type : string := "text/plain".

Definition failure_message : string :=
  "Failed to analyze document. Please make sure your API is running on http://localhost:8000".

Section Handlers.

(** The remote side: how the promise returned by [fetch] settles. *)
Variable network : Request -> promise Response.

Definition fetch (url_ : string) (method_ : string)
    (headers_ : list (string * string)) (body_ : RequestBody)
    : M (promise Response) :=
  fun w =>
    let req := {| url := url_; method := method_; headers := headers_;
                  body := body_ |} in
    (Return (network req), emit (EvFetch req) w).

(** App.tsx lines 41-52 *)
Definition simulateUpload : M unit :=
  setUploadProgress 0%Z ;;
  _ <- setInterval ;;
  ret tt.

(** One firing of the interval callback of [simulateUpload]:
    [setUploadProgress(prev => ...)] with the current progress. *)
Definition intervalTick (interval : nat) : M unit :=
  fun w =>
    if (100 <=? uploadProgress (state w))%Z
    then (clearInterval interval ;; setUploadProgress 100%Z) w
    else setUploadProgressBy (fun prev => (prev + 10)%Z) w.

(** App.tsx lines 33-39 *)
Definition handleFileChange (e : ChangeEvent) : M unit :=
  let file := match target_files e with
              | Some files => nth_error files 0
              | None => None
              end in
  match file with
  | Some f => setSelectedFile (Some f) ;; simulateUpload
  | None => ret tt
  end.

(** App.tsx lines 54-61 *)
Definition handleDragOver : M unit :=
  preventDefault ;; setIsDragging true.

Definition handleDragLeave : M unit :=
  setIsDragging false.

(** App.tsx lines 63-71 *)
Definition handleDrop (e : DragEvent) : M unit :=
  preventDefault ;;
  setIsDragging false ;;
  match nth_error (dataTransfer_files e) 0 with
  | Some f =>
      if String.eqb (type f) pdf_type
         || String.eqb (type f) docx_type
         || String.eqb (type f) plain_type
      then setSelectedFile (Some f) ;; simulateUpload
      else ret tt
  | None => ret tt
  end.

(** App.tsx lines 73-160; [r] is the state of the render whose button was
    clicked. *)
Definition handleAnalyze (r : AppState) : M unit :=
  if negb (isSome (selectedFile r)) && negb (nonEmpty (trim (pastedText r)))
  then ret tt
  else
    setIsAnalyzing true ;;
    try_catch_finally
      (if podcastMode r then
         response <-
           match selectedFile r with
           | Some file =>
               p <- fetch (API_BASE_URL ++ "/conversation_clauses_file")%string
                      "POST" [] (FormData [("file", file)]) ;;
               await p
           | None =>
               p <- fetch (API_BASE_URL ++ "/conversation_clauses")%string
                      "POST" [("Content-Type", "application/json")]
                      (JsonText (JObject [("text", JString (pastedText r))])) ;;
               await p
           end ;;
         (if negb (ok response)
          then throw (Error ("API Error: " ++ statusText response)%string)
          else ret tt) ;;
         blob_ <- await (blob response) ;;
         url_ <- createObjectURL blob_ ;;
         setAudioUrl (Some url_) ;;
         setResults []
       else
         response <-
           match selectedFile r with
           | Some file =>
               p <- fetch (API_BASE_URL ++ "/get_clauses")%string
                      "POST" [] (FormData [("file", file)]) ;;
               await p
           | None =>
               p <- fetch (API_BASE_URL ++ "/get_clauses")%string
                      "POST" [("Content-Type", "application/json")]
                      (JsonText (JObject [("text", JString (pastedText r))])) ;;
               await p
           end ;;
         (if negb (ok response)
          then throw (Error ("API Error: " ++ statusText response)%string)
          else ret tt) ;;
         data <- await (json response) ;;
         transformedResults <- liftResult (transformResults data) ;;
         setResults transformedResults ;;
         setAudioUrl None)
      (fun error =>
         console_error "Error analyzing document:" error ;;
         alert failure_message)
      (setIsAnalyzing false).

(** App.tsx lines 162-173 *)
Definition handleClear : M unit :=
  setSelectedFile None ;;
  setPastedText "" ;;
  setResults [] ;;
  setUploadProgress 0%Z ;;
  setAudioUrl None ;;
  setIsPlaying false ;;
  ifAudio (audio_pause ;; audio_setCurrentTime (S754_zero false)).

(** App.tsx lines 175-184 *)
Definition togglePlayPause (r : AppState) : M unit :=
  ifAudio ((if isPlaying r then audio_pause else audio_play) ;;
           setIsPlaying (negb (isPlaying r))).

(** The podcast toggle and the text area (App.tsx lines 349 and 450). *)
Definition togglePodcastMode (r : AppState) : M unit :=
  setPodcastMode (negb (podcastMode r)).

Definition handleTextChange (v : string) : M unit :=
  setPastedText v.

(** [onValueChange={setActiveTab}] of the tabs (App.tsx line 365). *)
Definition handleTabChange (v : string) : M unit :=
  setActiveTab v.

(** Running a handler to completion from a world. *)
Definition exec {A} (m : M A) (w : World) : World := snd (m w).

(** A click on the submit button of the page rendered from [w]. *)
Definition submit (w : World) : World := exec (handleAnalyze (state w)) w.

End Handlers.

(** ** Observations on worlds and traces *)

(** The guard of [handleAnalyze] and of the submit button: a file is
    selected, or the pasted text is not only white space. *)
Definition hasInput (s : AppState) : bool :=
  isSome (selectedFile s) || nonEmpty (trim (pastedText s)).

Fixpoint fetches (t : list Event) : list Request :=
  match t with
  | [] => []
  | EvFetch req :: t' => req :: fetches t'
  | _ :: t' => fetches t'
  end.

Fixpoint alerts (t : list Event) : list string :=
  match t with
  | [] => []
  | EvAlert m :: t' => m :: alerts t'
  | _ :: t' => alerts t'
  end.

(** The states shown while a handler was suspended at an [await]. *)
Fixpoint suspensions (t : list Event) : list AppState :=
  match t with
  | [] => []
  | EvSuspend s :: t' => s :: suspensions t'
  | _ :: t' => suspensions t'
  end.

(** The request [handleAnalyze] builds from the state of its render. *)
Definition requestOf (r : AppState) : Request :=
  match selectedFile r with
  | Some file =>
      {| url := (API_BASE_URL ++
                 (if podcastMode r then "/conversation_clauses_file"
                  else "/get_clauses"))%string;
         method := "POST"; headers := [];
         body := FormData [("file", file)] |}
  | None =>
      {| url := (API_BASE_URL ++
                 (if podcastMode r then "/conversation_clauses"
                  else "/get_clauses"))%string;
         method := "POST";
         headers := [("Content-Type", "application/json")];
         body := JsonText (JObject [("text", JString (pastedText r))]) |}
  end.

(** *** The operation table of the specification (section 4.1) *)

Inductive Mode : Type := Standard | Narrated.
Inductive InputSource : Type := FromFile | FromText.

Definition analyze_endpoint : string := "http://localhost:8000/get_clauses".
Definition file_narration_endpoint : string :=
  "http://localhost:8000/conversation_clauses_file".
Definition text_narration_endpoint : string :=
  "http://localhost:8000/conversation_clauses".

Definition spec_endpoint (m : Mode) (i : InputSource) : string :=
  match m, i with
  | Standard, FromFile => analyze_endpoint
  | Standard, FromText => analyze_endpoint
  | Narrated, FromFile => file_narration_endpoint
  | Narrated, FromText => text_narration_endpoint
  end.

Definition modeOf (s : AppState) : Mode :=
  if podcastMode s then Narrated else Standard.

(** *** How a submission can fail *)

(** The promise of [fetch] rejects: no response arrived. *)
Definition transportFailure (p : promise Response) : bool :=
  match p with
  | Throw _ => true
  | Return _ => false
  end.

(** A response arrived with a status outside 200..299. *)
Definition httpFailure (p : promise Response) : bool :=
  match p with
  | Return r => negb (ok r)
  | Throw _ => false
  end.

(** A 2xx response whose body the handler cannot use: in standard mode the
    body is not JSON or its normalisation throws, in narrated mode the body
    cannot be read. *)
Definition malformedPayload (narrated : bool) (p : promise Response) : bool :=
  match p with
  | Return r =>
      ok r &&
      (if narrated then negb (isSome (blobBody r))
       else match jsonBody r with
            | Some data => isThrow (transformResults data)
            | None => true
            end)
  | Throw _ => false
  end.

Definition failed (narrated : bool) (p : promise Response) : bool :=
  transportFailure p || httpFailure p || malformedPayload narrated p.

(** A standard-mode submission from [w] whose response is 2xx, carries the
    JSON value [data], and normalises to [cs]. *)
Definition standardSuccess (network : Request -> promise Response)
    (w : World) (data : value) (cs : list Clause) : Prop :=
  hasInput (state w) = true /\
  podcastMode (state w) = false /\
  exists r, network (requestOf (state w)) = Return r /\
            ok r = true /\
            jsonBody r = Some data /\
            transformResults data = Return cs.

(** *** Reading the records of a payload *)

Definition nullish (v : value) : bool :=
  match v with
  | JUndefined | JNull => true
  | _ => false
  end.

(** The member [k] of [v] is missing or empty: the read succeeds and gives a
    falsy value. *)
Definition absent (v : value) (k : string) : bool :=
  match get v k with
  | Return x => negb (truthy x)
  | Throw _ => false
  end.

(** The category the server supplied: [risk_level], else [severity]. *)
Definition category (clause : value) : result value :=
  get clause "risk_level" <||> get clause "severity".



(** *** The two naming schemes of a record *)

Definition altName (k : string) : string :=
  if String.eqb k "text" then "clause_text"
  else if String.eqb k "risk_level" then "severity"
  else if String.eqb k "explanation" then "reason"
  else k.

(** The record with [text], [risk_level] and [explanation] renamed to
    [clause_text], [severity] and [reason], values kept. *)
Definition altRecord (members : list (string * value))
    : list (string * value) :=
  map (fun m => (altName (fst m), snd m)) members.

Definition renamedPairs : list (string * string) :=
  [("text", "clause_text"); ("risk_level", "severity");
   ("explanation", "reason")].

Definition isAltName (k : string) : bool :=
  String.eqb k "clause_text" || String.eqb k "severity"
  || String.eqb k "reason".

(** The record uses only the first naming scheme. *)
Definition usesPrimaryNames (members : list (string * value)) : bool :=
  forallb (fun m => negb (isAltName (fst m))) members.

Definition payload (records : list (list (string * value))) : value :=
  JObject [("clauses", JArray (map JObject records))].

(** A server that answers every request with [r]. *)
Definition respond (r : Response) : Request -> promise Response :=
  fun _ => Return r.

Definition jsonResponse (data : value) : Response :=
  {| status := 200; statusText := "OK"; jsonBody := Some data;
     blobBody := None |}.

(** ** Sample data *)

Module Sample.

Definition refundText : string := "You waive all rights to a refund.".

(** The record of the example in section 8 of the specification. *)
Definition refundMembers : list (string * value) :=
  [("id", JString "1"); ("text", JString refundText);
   ("risk_level", JString "HIGH");
   ("explanation", JString "You cannot get your money back.")].

Definition refundRecord : value := JObject refundMembers.

Definition refundPayload : value := payload [refundMembers].

Definition refundClause : Clause :=
  {| id := JString "1"; text := JString refundText; riskLevel := "high";
     explanation := JString "You cannot get your money back." |}.

Definition contract : File :=
  {| name := "terms.pdf"; size := 20971520; type := pdf_type |}.

Definition picture : File :=
  {| name := "scan.png"; size := 52428800; type := "image/png" |}.

Definition speech : Blob :=
  {| blobType := "audio/wav"; blobBytes := "RIFF" |}.

Definition world (s : AppState) : World :=
  {| state := s; audioRef := None; objectURLs := []; intervals := [];
     nextTimer := 0; trace := [] |}.

(** Pasted text, standard mode, nothing computed yet. *)
Definition pastedWorld : World :=
  world (with_pastedText refundText initialState).

(** Nothing selected, and only white space pasted. *)
Definition blankWorld : World :=
  world (with_pastedText (String (ascii_of_N 9) "  ") initialState).

(** A file and a text at once, in podcast mode. *)
Definition bothInputs : World :=
  world (with_podcastMode true
           (with_pastedText refundText
              (with_selectedFile (Some contract) initialState))).

(** An analysis is on display and the user has switched to podcast mode
    with a file selected. *)
Definition narratedWithResults : World :=
  world (with_podcastMode true
           (with_results [refundClause]
              (with_selectedFile (Some contract) initialState))).

(** A narration is on display (its element mounted and playing) and the
    user is back in standard mode with pasted text. *)
Definition standardWithAudio : World :=
  {| state := with_isPlaying true
                (with_audioUrl (Some "blob:0")
                   (with_pastedText refundText initialState));
     audioRef := Some {| src := "blob:0"; paused := false;
                         currentTime := S754_finite false 3 0 |};
     objectURLs := [("blob:0", speech)]; intervals := [];
     nextTimer := 0; trace := [] |}.

(** The same page while a new request is in flight. *)
Definition inFlightWithAudio : World :=
  {| state := with_isAnalyzing true (state standardWithAudio);
     audioRef := audioRef standardWithAudio;
     objectURLs := objectURLs standardWithAudio;
     intervals := []; nextTimer := 0; trace := [] |}.

Definition serverError : Request -> promise Response :=
  respond {| status := 500; statusText := "Internal Server Error";
             jsonBody := None; blobBody := None |}.

Definition offline : Request -> promise Response :=
  fun _ => Throw TypeError.

Definition refundServer : Request -> promise Response :=
  respond (jsonResponse refundPayload).

Definition speechServer : Request -> promise Response :=
  respond {| status := 200; statusText := "OK"; jsonBody := None;
             blobBody := Some speech |}.

End Sample.

(** ** Proof automation *)

(** The case analysis every property of [submit] goes through: the fields of
    the world and of the state, then how the awaited promises settle. *)
Ltac split_world w :=
  let s := fresh "s" in
  destruct w as [s ? ? ? ? ?];
  destruct s as [file pasted analyzing res progress tab dragging narrated
                 audio playing].

Ltac unfold_M :=
  unfold try_catch_finally, bind, ret, throw, fetch, await, liftResult,
    createObjectURL, setAudioUrl, setResults, setIsAnalyzing, console_error,
    alert, update, withState, emit, blob, json,
    with_isAnalyzing, with_results, with_audioUrl;
  cbn.

Ltac settle network :=
  match goal with
  | |- context [network ?req] =>
      let resp := fresh "resp" in
      destruct (network req) as [resp|?] eqn:?; cbn;
      [ destruct (ok resp) eqn:?; cbn;
        [ try match goal with
            | |- context [blobBody resp] =>
                destruct (blobBody resp) eqn:?; cbn
            end;
          try match goal with
            | |- context [jsonBody resp] =>
                let data := fresh "data" in
                destruct (jsonBody resp) as [data|] eqn:?; cbn;
                [ destruct (transformResults data) eqn:?; cbn | ]
            end
        | ]
      | ]
  end.

Ltac norm_trace := rewrite <- ?app_assoc; cbn [app].

Ltac unfold_failed :=
  unfold failed, transportFailure, httpFailure, malformedPayload, isThrow.

(** Opens [submit] on a world with input, leaving one goal per combination of
    input source and mode. *)
Ltac open_submit w H :=
  unfold submit, exec, handleAnalyze;
  split_world w;
  unfold hasInput in H;
  cbn [state selectedFile pastedText podcastMode isSome negb andb orb] in *;
  match goal with
  | f : option File |- _ =>
      destruct f; cbn [isSome negb andb orb] in *; [|rewrite H]
  end;
  cbn [isSome negb andb orb];
  match goal with
  | b : bool |- context [if ?n then _ else _] => is_var n; destruct n
  end.

(** ** Basic facts *)

Lemma fetches_app (t1 t2 : list Event) :
  fetches (t1 ++ t2) = fetches t1 ++ fetches t2.
Proof.
  induction t1 as [|e t1 IH]; [reflexivity|].
  destruct e; cbn; rewrite IH; reflexivity.
Qed.

Lemma alerts_app (t1 t2 : list Event) :
  alerts (t1 ++ t2) = alerts t1 ++ alerts t2.
Proof.
  induction t1 as [|e t1 IH]; [reflexivity|].
  destruct e; cbn; rewrite IH; reflexivity.
Qed.

Lemma suspensions_app (t1 t2 : list Event) :
  suspensions (t1 ++ t2) = suspensions t1 ++ suspensions t2.
Proof.
  induction t1 as [|e t1 IH]; [reflexivity|].
  destruct e; cbn; rewrite IH; reflexivity.
Qed.

Lemma trimStart_all_whitespace (s : string) :
  all_whitespace s = true -> trimStart s = "".
Proof.
  induction s as [|c s IH]; cbn; [reflexivity|].
  destruct (is_whitespace c); cbn; [exact IH | discriminate].
Qed.

Lemma trimEnd_nonEmpty (s : string) :
  all_whitespace s = false -> nonEmpty (trimEnd s) = true.
Proof.
  induction s as [|c s IH]; cbn; [discriminate|].
  destruct (is_whitespace c); cbn.
  - intros H. specialize (IH H). destruct (trimEnd s); [discriminate|reflexivity].
  - intros _. destruct (trimEnd s); reflexivity.
Qed.

Lemma trimStart_not_whitespace (s : string) :
  all_whitespace s = false -> all_whitespace (trimStart s) = false.
Proof.
  induction s as [|c s IH]; cbn; [discriminate|].
  destruct (is_whitespace c) eqn:E; cbn.
  - exact IH.
  - rewrite E. reflexivity.
Qed.

(** The trimmed text is empty exactly when the text is only white space. *)
Lemma trim_nonEmpty (s : string) :
  nonEmpty (trim s) = negb (all_whitespace s).
Proof.
  unfold trim. destruct (all_whitespace s) eqn:E; cbn.
  - rewrite (trimStart_all_whitespace s E). reflexivity.
  - apply trimEnd_nonEmpty, trimStart_not_whitespace, E.
Qed.

(** ** Submission *)

(** Without input the handler returns at its guard. *)
Lemma submit_guard network (w : World) :
  hasInput (state w) = false -> submit network w = w.
Proof.
  unfold hasInput, submit, exec, handleAnalyze.
  destruct (isSome (selectedFile (state w))); cbn; [discriminate|].
  intros ->. reflexivity.
Qed.

(** With input, exactly the request of the render's state is sent. *)
Lemma submit_fetches network (w : World) :
  hasInput (state w) = true ->
  fetches (trace (submit network w))
  = fetches (trace w) ++ [requestOf (state w)].
Proof.
  intros H. unfold requestOf.
  open_submit w H; unfold_M; settle network; norm_trace;
    rewrite fetches_app; reflexivity.
Qed.

(** The page shows the in-flight state, with nothing else changed, while the
    request is pending. *)
Lemma submit_suspends network (w : World) :
  hasInput (state w) = true ->
  exists rest,
    suspensions (trace (submit network w))
    = suspensions (trace w) ++ with_isAnalyzing true (state w) :: rest.
Proof.
  intros H.
  open_submit w H; unfold_M; settle network; norm_trace;
    rewrite suspensions_app; cbn; eexists; reflexivity.
Qed.

(** A failed submission: the status flag is lowered and nothing else in the
    state moves; the blob URL store and the audio element are untouched; one
    alert with the fixed message is raised. *)
Lemma submit_failed network (w : World) :
  hasInput (state w) = true ->
  failed (podcastMode (state w)) (network (requestOf (state w))) = true ->
  state (submit network w) = with_isAnalyzing false (state w)
  /\ objectURLs (submit network w) = objectURLs w
  /\ audioRef (submit network w) = audioRef w
  /\ alerts (trace (submit network w)) = alerts (trace w) ++ [failure_message].
Proof.
  intros H F. revert F. unfold requestOf.
  open_submit w H; unfold_failed; unfold_M; settle network;
    try discriminate; intros _; norm_trace; rewrite alerts_app;
    repeat split; reflexivity.
Qed.

(** A successful narration: the handle of the received audio is stored and the
    clause list emptied. *)
Lemma submit_narrated_success network (w : World) (r : Response) (b : Blob) :
  hasInput (state w) = true ->
  podcastMode (state w) = true ->
  network (requestOf (state w)) = Return r ->
  ok r = true ->
  blobBody r = Some b ->
  let u := ("blob:" ++ ofNat (length (objectURLs w)))%string in
  state (submit network w)
  = with_isAnalyzing false (with_results [] (with_audioUrl (Some u) (state w)))
  /\ objectURLs (submit network w) = (u, b) :: objectURLs w
  /\ alerts (trace (submit network w)) = alerts (trace w).
Proof.
  intros H N Q O B. revert N Q. unfold requestOf.
  open_submit w H; cbn; try discriminate; intros _ Q;
    unfold_M; rewrite Q; cbn; rewrite O; cbn; rewrite B; cbn;
    norm_trace; rewrite alerts_app, app_nil_r; repeat split; reflexivity.
Qed.

(** A successful analysis: the normalised clauses are stored and the audio
    handle dropped. *)
Lemma submit_standard_success network (w : World) data cs :
  standardSuccess network w data cs ->
  state (submit network w)
  = with_isAnalyzing false (with_audioUrl None (with_results cs (state w)))
  /\ objectURLs (submit network w) = objectURLs w
  /\ alerts (trace (submit network w)) = alerts (trace w).
Proof.
  intros (H & N & r & Q & O & J & T). revert N Q. unfold requestOf.
  open_submit w H; cbn; try discriminate; intros _ Q;
    unfold_M; rewrite Q; cbn; rewrite O; cbn; rewrite J; cbn; rewrite T; cbn;
    norm_trace; rewrite alerts_app, app_nil_r; repeat split; reflexivity.
Qed.

(** ** The remaining handlers *)

(** With no audio element mounted, the play button does nothing. *)
Lemma togglePlayPause_unmounted (r : AppState) (w : World) :
  audioRef w = None -> exec (togglePlayPause r) w = w.
Proof.
  intros A. unfold exec, togglePlayPause, ifAudio. rewrite A. reflexivity.
Qed.

(** One firing of the upload timer adds ten below one hundred; at one hundred
    it stops the timer. *)
Lemma intervalTick_step (interval : nat) (w : World) :
  (uploadProgress (state w) < 100)%Z ->
  uploadProgress (state (exec (intervalTick interval) w))
  = (uploadProgress (state w) + 10)%Z
  /\ intervals (exec (intervalTick interval) w) = intervals w.
Proof.
  intros P. unfold exec, intervalTick.
  destruct (Z.leb_spec 100 (uploadProgress (state w))); [lia|].
  split; reflexivity.
Qed.

Lemma intervalTick_stop (interval : nat) (w : World) :
  (100 <= uploadProgress (state w))%Z ->
  uploadProgress (state (exec (intervalTick interval) w)) = 100%Z
  /\ ~ In interval (intervals (exec (intervalTick interval) w)).
Proof.
  intros P. unfold exec, intervalTick.
  destruct (Z.leb_spec 100 (uploadProgress (state w))); [|lia].
  split; [reflexivity|]. cbn.
  intros I. apply filter_In in I as [_ I].
  rewrite Nat.eqb_refl in I. discriminate.
Qed.

(** Switching the mode, editing the text or changing the tab keeps what was
    computed before. *)
Lemma switching_keeps_results (r : AppState) (v : string) (w : World) :
  (results (state (exec (togglePodcastMode r) w)) = results (state w)
   /\ audioUrl (state (exec (togglePodcastMode r) w)) = audioUrl (state w))
  /\ (results (state (exec (handleTextChange v) w)) = results (state w)
      /\ audioUrl (state (exec (handleTextChange v) w)) = audioUrl (state w))
  /\ (results (state (exec (handleTabChange v) w)) = results (state w)
      /\ audioUrl (state (exec (handleTabChange v) w)) = audioUrl (state w)).
Proof.
  repeat split.
Qed.

(** Dragging over the drop zone only raises the drag flag, leaving it only
    lowers it. *)
Lemma drag_flags (w : World) :
  state (exec handleDragOver w) = with_isDragging true (state w)
  /\ state (exec handleDragLeave w) = with_isDragging false (state w).
Proof.
  split; reflexivity.
Qed.

(** A promise that did not fail carries what the mode needs. *)
Lemma not_failed_narrated (p : promise Response) :
  failed true p = false ->
  exists r b, p = Return r /\ ok r = true /\ blobBody r = Some b.
Proof.
  unfold_failed. destruct p as [r|e]; cbn; [|discriminate].
  destruct (ok r) eqn:O; cbn; [|discriminate].
  destruct (blobBody r) as [b|] eqn:B; cbn; [|discriminate].
  intros _. exists r, b. auto.
Qed.

Lemma not_failed_standard (p : promise Response) :
  failed false p = false ->
  exists r data cs,
    p = Return r /\ ok r = true /\ jsonBody r = Some data
    /\ transformResults data = Return cs.
Proof.
  unfold_failed. destruct p as [r|e]; cbn; [|discriminate].
  destruct (ok r) eqn:O; cbn; [|discriminate].
  destruct (jsonBody r) as [data|] eqn:J; cbn; [|discriminate].
  destruct (transformResults data) as [cs|] eqn:T; cbn; [|discriminate].
  intros _. exists r, data, cs. auto.
Qed.

(** ** Normalisation of the response *)

Lemma lookup_alt_other (k : string) members :
  altName k = k -> isAltName k = false ->
  usesPrimaryNames members = true ->
  (forall k', altName k' = k -> k' = k) ->
  lookup k (altRecord members) = lookup k members.
Proof.
  intros Hk Ha Hp Hinj. induction members as [|[k' v] rest IH]; [reflexivity|].
  cbn in *. apply andb_true_iff in Hp as [Hk' Hp].
  destruct (String.eqb k (altName k')) eqn:E.
  - apply String.eqb_eq in E. symmetry in E. apply Hinj in E. subst k'.
    rewrite String.eqb_refl. reflexivity.
  - destruct (String.eqb k k') eqn:E'.
    + apply String.eqb_eq in E'. subst k'. rewrite Hk, String.eqb_refl in E.
      discriminate.
    + apply IH, Hp.
Qed.

Lemma altName_cases (k : string) :
  (k = "text" /\ altName k = "clause_text")
  \/ (k = "risk_level" /\ altName k = "severity")
  \/ (k = "explanation" /\ altName k = "reason")
  \/ (altName k = k /\ k <> "text" /\ k <> "risk_level" /\ k <> "explanation").
Proof.
  unfold altName.
  destruct (String.eqb k "text") eqn:E1;
    [apply String.eqb_eq in E1; auto|apply String.eqb_neq in E1].
  destruct (String.eqb k "risk_level") eqn:E2;
    [apply String.eqb_eq in E2; auto|apply String.eqb_neq in E2].
  destruct (String.eqb k "explanation") eqn:E3;
    [apply String.eqb_eq in E3; auto 6|apply String.eqb_neq in E3].
  auto 10.
Qed.

(** After renaming, a primary name is gone and its value sits under the
    alternative name. *)
Lemma lookup_alt_renamed (k k2 : string) members :
  In (k, k2) renamedPairs ->
  usesPrimaryNames members = true ->
  lookup k (altRecord members) = JUndefined
  /\ lookup k2 (altRecord members) = lookup k members
  /\ lookup k2 members = JUndefined.
Proof.
  intros Hin Hp.
  assert (altName k = k2 /\ k <> k2 /\ isAltName k2 = true
          /\ (forall k', altName k' = k2 -> k' = k \/ k' = k2)
          /\ (forall k', altName k' <> k)) as (Hk & Hne & Ha & Hpre & Hno).
  { unfold renamedPairs in Hin.
    destruct Hin as [E|[E|[E|[]]]]; injection E as <- <-;
      (split; [reflexivity|]); (split; [discriminate|]);
      (split; [reflexivity|]);
      split; intros k' E;
      destruct (altName_cases k')
        as [[-> E']|[[-> E']|[[-> E']|[E' (? & ? & ?)]]]];
      try (rewrite E' in E); try discriminate; try congruence; auto;
      try (right; congruence). }
  induction members as [|[k' v] rest IH]; [auto|].
  cbn in *. apply andb_true_iff in Hp as [Hk' Hp].
  destruct (IH Hp) as (I1 & I2 & I3).
  assert (k2 <> k') as Hk2.
  { intros <-. rewrite Ha in Hk'. discriminate. }
  apply String.eqb_neq in Hk2. rewrite Hk2.
  destruct (String.eqb k (altName k')) eqn:E.
  { apply String.eqb_eq in E. symmetry in E. apply Hno in E. contradiction. }
  destruct (String.eqb k2 (altName k')) eqn:E2.
  - apply String.eqb_eq in E2. symmetry in E2.
    destruct (Hpre _ E2) as [->| ->].
    + rewrite String.eqb_refl. auto.
    + rewrite String.eqb_refl in Hk2. discriminate.
  - destruct (String.eqb k k') eqn:E3.
    + apply String.eqb_eq in E3. subst k'. rewrite Hk, String.eqb_refl in E2.
      discriminate.
    + auto.
Qed.

Lemma lookup_alt_id members :
  usesPrimaryNames members = true ->
  lookup "id" (altRecord members) = lookup "id" members.
Proof.
  intros Hp. apply lookup_alt_other; auto.
  intros k' E. destruct (altName_cases k') as [[-> E']|[[-> E']|[[-> E']|[E' _]]]];
    congruence.
Qed.

Lemma or_else_swap (v : value) (d : result value) :
  Return v <||> Return JUndefined <||> d
  = Return JUndefined <||> Return v <||> d.
Proof.
  unfold or_else, rbind. cbn. destruct (truthy v) eqn:E; cbn; rewrite ?E; reflexivity.
Qed.

(** A record read through the alternative names normalises like the same
    record read through the primary names. *)
Lemma transformClause_alt members (index : nat) :
  usesPrimaryNames members = true ->
  transformClause (JObject (altRecord members)) index
  = transformClause (JObject members) index.
Proof.
  intros Hp. unfold transformClause, get.
  rewrite (lookup_alt_id _ Hp).
  destruct (lookup_alt_renamed "text" "clause_text" members)
    as (T1 & T2 & T3); [cbn; auto|exact Hp|].
  destruct (lookup_alt_renamed "risk_level" "severity" members)
    as (R1 & R2 & R3); [cbn; auto|exact Hp|].
  destruct (lookup_alt_renamed "explanation" "reason" members)
    as (E1 & E2 & E3); [cbn; auto|exact Hp|].
  rewrite T1, T2, T3, R1, R2, R3, E1, E2, E3.
  rewrite <- !or_else_swap. reflexivity.
Qed.

Lemma mapFrom_alt records (index : nat) :
  forallb usesPrimaryNames records = true ->
  mapFrom index (map JObject (map altRecord records))
  = mapFrom index (map JObject records).
Proof.
  revert index. induction records as [|m rest IH]; intros index Hp.
  - reflexivity.
  - cbn in *. apply andb_true_iff in Hp as [Hm Hp].
    rewrite (transformClause_alt m index Hm), (IH (S index) Hp). reflexivity.
Qed.

Lemma transformResults_alt records :
  forallb usesPrimaryNames records = true ->
  transformResults (payload (map altRecord records))
  = transformResults (payload records).
Proof.
  intros Hp. unfold transformResults, payload. cbn.
  apply mapFrom_alt, Hp.
Qed.

(** The clause at a position of the result comes from the record at that
    position of the array. *)
Lemma mapFrom_nth items : forall (index : nat) cs (i : nat) clause,
  mapFrom index items = Return cs ->
  nth_error items i = Some clause ->
  exists c, nth_error cs i = Some c
            /\ transformClause clause (index + i) = Return c.
Proof.
  induction items as [|x rest IH]; intros index cs i clause Hm Hn.
  - destruct i; discriminate.
  - cbn in Hm.
    destruct (transformClause x index) as [c|] eqn:Hc; cbn in Hm; [|discriminate].
    destruct (mapFrom (S index) rest) as [cs'|] eqn:Hr; cbn in Hm; [|discriminate].
    injection Hm as <-.
    destruct i as [|i]; cbn in *.
    + injection Hn as <-. exists c. rewrite Nat.add_0_r. auto.
    + destruct (IH _ _ _ _ Hr Hn) as (c' & H1 & H2).
      exists c'. rewrite Nat.add_succ_r. auto.
Qed.

Lemma get_not_nullish (v : value) (k : string) :
  nullish v = false -> exists x, get v k = Return x.
Proof.
  destruct v; cbn; try discriminate; eauto.
Qed.

Lemma category_not_nullish (clause : value) (v : value) :
  category clause = Return v -> nullish clause = false.
Proof.
  destruct clause; cbn; try reflexivity; discriminate.
Qed.

(** A chain of [||] that ends in a literal never throws once its reads
    succeed, and yields the literal when every read is falsy. *)
Lemma or_else_default1 (a d : value) :
  exists y, Return a <||> Return d = Return y
            /\ (truthy a = false -> y = d).
Proof.
  unfold or_else, rbind. destruct (truthy a); eauto.
  eexists; split; [reflexivity|discriminate].
Qed.

Lemma or_else_default2 (a b d : value) :
  exists y, Return a <||> Return b <||> Return d = Return y
            /\ (truthy a = false -> truthy b = false -> y = d).
Proof.
  unfold or_else, rbind.
  destruct (truthy a) eqn:A; [rewrite A|destruct (truthy b) eqn:B];
    eexists; (split; [reflexivity|]); intros; congruence.
Qed.

(** What the callback returns once the category can be lower-cased. *)
Lemma transformClause_returns (clause : value) (index : nat) (l : string) :
  get clause "risk_level" <||> get clause "severity"
    <||> Return (JString "medium") = Return (JString l) ->
  exists c, transformClause clause index = Return c
    /\ riskLevel c = toLowerCase l
    /\ (absent clause "id" = true -> id c = JString (ofNat (index + 1)))
    /\ (absent clause "text" = true -> absent clause "clause_text" = true ->
        text c = JString "")
    /\ (absent clause "explanation" = true -> absent clause "reason" = true ->
        explanation c = JString "").
Proof.
  intros L. unfold transformClause. rewrite L. unfold absent.
  assert (nullish clause = false) as N by (destruct clause; cbn in *; try reflexivity; discriminate).
  destruct (get_not_nullish clause "id" N) as (vi & ->).
  destruct (get_not_nullish clause "text" N) as (vt & ->).
  destruct (get_not_nullish clause "clause_text" N) as (vc & ->).
  destruct (get_not_nullish clause "explanation" N) as (ve & ->).
  destruct (get_not_nullish clause "reason" N) as (vr & ->).
  destruct (or_else_default1 vi (JString (ofNat (index + 1)))) as (y1 & -> & D1).
  destruct (or_else_default2 vt vc (JString "")) as (y2 & -> & D2).
  destruct (or_else_default2 ve vr (JString "")) as (y3 & -> & D3).
  cbn. eexists. split; [reflexivity|]. cbn.
  repeat split; intros; auto using negb_true_iff.
  - apply D1. now apply negb_true_iff.
  - apply D2; now apply negb_true_iff.
  - apply D3; now apply negb_true_iff.
Qed.

Lemma category_string (clause : value) (s : string) :
  category clause = Return (JString s) -> nonEmpty s = true ->
  get clause "risk_level" <||> get clause "severity"
    <||> Return (JString "medium") = Return (JString s).
Proof.
  intros C S. fold (category clause). rewrite C.
  unfold or_else, rbind. cbn. rewrite S. reflexivity.
Qed.


(** ** The claims about submission *)

(** C1: with a file or non-blank text present, a submission sends exactly
    one request, to the endpoint the table of section 4.1 gives for the mode
    and the input source; whenever a file is selected the file variant is
    sent, whatever the pasted text is. *)
Theorem C1_dispatch_follows_table network (w : World) :
  hasInput (state w) = true ->
  exists req,
    fetches (trace (submit network w)) = fetches (trace w) ++ [req]
    /\ method req = "POST"
    /\ match selectedFile (state w) with
       | Some f =>
           url req = spec_endpoint (modeOf (state w)) FromFile
           /\ body req = FormData [("file", f)]
       | None =>
           url req = spec_endpoint (modeOf (state w)) FromText
           /\ body req
              = JsonText (JObject [("text", JString (pastedText (state w)))])
       end.
Proof.
  intros H. exists (requestOf (state w)).
  split; [apply submit_fetches, H|].
  unfold requestOf, modeOf.
  destruct (selectedFile (state w)), (podcastMode (state w)); cbn; auto.
Qed.

Lemma C1_witness :
  exists req,
    fetches (trace (submit Sample.speechServer Sample.bothInputs)) = [req]
    /\ method req = "POST"
    /\ url req = file_narration_endpoint
    /\ body req = FormData [("file", Sample.contract)].
Proof.
  exact (C1_dispatch_follows_table Sample.speechServer Sample.bothInputs
           eq_refl).
Defined.

(** C2, as the code has it: the other kind of result is cleared only when
    the request succeeds.  While the request is pending the page shows the
    clause list and the audio handle from before; after a failure both are
    still the ones from before; after a successful narration the clause list
    is empty and a handle is stored; after a successful analysis the handle
    is dropped and the clause list is the normalised payload. *)
Theorem C2_cleared_on_success_only network (w : World) :
  hasInput (state w) = true ->
  (exists inflight rest,
      suspensions (trace (submit network w))
      = suspensions (trace w) ++ inflight :: rest
      /\ isAnalyzing inflight = true
      /\ results inflight = results (state w)
      /\ audioUrl inflight = audioUrl (state w))
  /\ (failed (podcastMode (state w)) (network (requestOf (state w))) = true ->
      results (state (submit network w)) = results (state w)
      /\ audioUrl (state (submit network w)) = audioUrl (state w))
  /\ (failed (podcastMode (state w)) (network (requestOf (state w))) = false ->
      if podcastMode (state w)
      then results (state (submit network w)) = []
           /\ exists u, audioUrl (state (submit network w)) = Some u
      else audioUrl (state (submit network w)) = None
           /\ exists r data,
                network (requestOf (state w)) = Return r
                /\ jsonBody r = Some data
                /\ transformResults data
                   = Return (results (state (submit network w)))).
Proof.
  intros H. split; [|split].
  - destruct (submit_suspends network w H) as (rest & E).
    exists (with_isAnalyzing true (state w)), rest. auto.
  - intros F. destruct (submit_failed network w H F) as (-> & _). auto.
  - intros F. destruct (podcastMode (state w)) eqn:N.
    + destruct (not_failed_narrated _ F) as (r & b & Q & O & B).
      destruct (submit_narrated_success network w r b H N Q O B) as (-> & _).
      cbn. eauto.
    + destruct (not_failed_standard _ F) as (r & data & cs & Q & O & J & T).
      assert (standardSuccess network w data cs) as S.
      { unfold standardSuccess. eauto 10. }
      destruct (submit_standard_success network w data cs S) as (-> & _).
      cbn. eauto 10.
Qed.

Lemma C2_witness :
  (exists inflight rest,
      suspensions (trace (submit Sample.speechServer Sample.narratedWithResults))
      = inflight :: rest
      /\ isAnalyzing inflight = true
      /\ results inflight = [Sample.refundClause]
      /\ audioUrl inflight = None)
  /\ results (state (submit Sample.speechServer Sample.narratedWithResults))
     = []
  /\ exists u,
       audioUrl (state (submit Sample.speechServer Sample.narratedWithResults))
       = Some u.
Proof.
  destruct (C2_cleared_on_success_only Sample.speechServer
              Sample.narratedWithResults eq_refl) as (I & _ & S).
  split; [exact I | exact (S eq_refl)].
Defined.

(** C2 as stated fails: a narrated submission answered with status 500
    leaves the earlier clause list in place, during the request and after it,
    and a standard submission that fails leaves the earlier audio handle in
    place. *)
Lemma C2_counterexample :
  podcastMode (state Sample.narratedWithResults) = true
  /\ hasInput (state Sample.narratedWithResults) = true
  /\ results (state Sample.narratedWithResults) = [Sample.refundClause]
  /\ map results
       (suspensions
          (trace (submit Sample.serverError Sample.narratedWithResults)))
     = [[Sample.refundClause]]
  /\ results (state (submit Sample.serverError Sample.narratedWithResults))
     = [Sample.refundClause]
  /\ results (state (submit Sample.serverError Sample.narratedWithResults))
     <> []
  /\ podcastMode (state Sample.standardWithAudio) = false
  /\ hasInput (state Sample.standardWithAudio) = true
  /\ map audioUrl
       (suspensions
          (trace (submit Sample.offline Sample.standardWithAudio)))
     = [Some "blob:0"]
  /\ audioUrl (state (submit Sample.offline Sample.standardWithAudio))
     = Some "blob:0".
Proof.
  repeat split; try reflexivity. discriminate.
Qed.

(** C3: with no file selected and a pasted text that is empty or only white
    space, submit returns at its guard: the world after is the world before,
    so no request is sent and no part of the state moves. *)
Theorem C3_no_input_is_a_noop network (w : World) :
  selectedFile (state w) = None ->
  all_whitespace (pastedText (state w)) = true ->
  submit network w = w
  /\ state (submit network w) = state w
  /\ fetches (trace (submit network w)) = fetches (trace w)
  /\ alerts (trace (submit network w)) = alerts (trace w).
Proof.
  intros F T.
  assert (submit network w = w) as ->; [|auto].
  apply submit_guard. unfold hasInput.
  rewrite F, trim_nonEmpty, T. reflexivity.
Qed.

Lemma C3_witness :
  submit Sample.refundServer Sample.blankWorld = Sample.blankWorld
  /\ state (submit Sample.refundServer Sample.blankWorld)
     = state Sample.blankWorld
  /\ fetches (trace (submit Sample.refundServer Sample.blankWorld)) = []
  /\ alerts (trace (submit Sample.refundServer Sample.blankWorld)) = [].
Proof.
  exact (C3_no_input_is_a_noop Sample.refundServer Sample.blankWorld
           eq_refl eq_refl).
Defined.

(** C4: when a submission fails, by a rejected fetch, a status outside
    200..299, or a body the handler cannot use, the status flag is back to
    idle, the clause list and the audio handle are the ones from before, no
    blob URL was created, and exactly one alert with the fixed message was
    raised. *)
Theorem C4_failure_restores_idle network (w : World) :
  hasInput (state w) = true ->
  transportFailure (network (requestOf (state w)))
  || httpFailure (network (requestOf (state w)))
  || malformedPayload (podcastMode (state w))
       (network (requestOf (state w))) = true ->
  isAnalyzing (state (submit network w)) = false
  /\ results (state (submit network w)) = results (state w)
  /\ audioUrl (state (submit network w)) = audioUrl (state w)
  /\ objectURLs (submit network w) = objectURLs w
  /\ alerts (trace (submit network w)) = alerts (trace w) ++ [failure_message].
Proof.
  intros H F.
  destruct (submit_failed network w H F) as (-> & -> & _ & ->). auto.
Qed.

Lemma C4_witness :
  isAnalyzing (state (submit Sample.serverError Sample.pastedWorld)) = false
  /\ results (state (submit Sample.serverError Sample.pastedWorld)) = []
  /\ audioUrl (state (submit Sample.serverError Sample.pastedWorld)) = None
  /\ objectURLs (submit Sample.serverError Sample.pastedWorld) = []
  /\ alerts (trace (submit Sample.serverError Sample.pastedWorld))
     = [failure_message].
Proof.
  exact (C4_failure_restores_idle Sample.serverError Sample.pastedWorld
           eq_refl eq_refl).
Defined.

(** ** The claims about normalisation *)

(** C5: two 2xx standard-mode responses whose payloads hold the same records,
    one under [text]/[risk_level]/[explanation] and one under
    [clause_text]/[severity]/[reason], normalise alike and leave the same
    clause list in the state. *)
Theorem C5_alternative_names_agree network_a network_b (w : World)
    (records : list (list (string * value))) (r_a r_b : Response) :
  hasInput (state w) = true ->
  podcastMode (state w) = false ->
  forallb usesPrimaryNames records = true ->
  network_a (requestOf (state w)) = Return r_a ->
  ok r_a = true ->
  jsonBody r_a = Some (payload records) ->
  network_b (requestOf (state w)) = Return r_b ->
  ok r_b = true ->
  jsonBody r_b = Some (payload (map altRecord records)) ->
  transformResults (payload (map altRecord records))
  = transformResults (payload records)
  /\ results (state (submit network_b w))
     = results (state (submit network_a w)).
Proof.
  intros H N P Qa Oa Ja Qb Ob Jb.
  pose proof (transformResults_alt records P) as E.
  split; [exact E|].
  destruct (transformResults (payload records)) as [cs|e] eqn:T.
  - assert (standardSuccess network_a w (payload records) cs) as Sa.
    { unfold standardSuccess. eauto 10. }
    assert (standardSuccess network_b w (payload (map altRecord records)) cs)
      as Sb.
    { unfold standardSuccess. eauto 10. }
    destruct (submit_standard_success _ _ _ _ Sa) as (-> & _).
    destruct (submit_standard_success _ _ _ _ Sb) as (-> & _).
    reflexivity.
  - assert (failed (podcastMode (state w)) (network_a (requestOf (state w)))
            = true) as Fa.
    { rewrite N, Qa. unfold_failed. rewrite Oa, Ja, T. reflexivity. }
    assert (failed (podcastMode (state w)) (network_b (requestOf (state w)))
            = true) as Fb.
    { rewrite N, Qb. unfold_failed. rewrite Ob, Jb, E. reflexivity. }
    destruct (submit_failed _ _ H Fa) as (-> & _).
    destruct (submit_failed _ _ H Fb) as (-> & _).
    reflexivity.
Qed.

Lemma C5_witness :
  transformResults (payload (map altRecord [Sample.refundMembers]))
  = Return [Sample.refundClause]
  /\ results
       (state (submit
                 (respond (jsonResponse
                             (payload (map altRecord [Sample.refundMembers]))))
                 Sample.pastedWorld))
     = results (state (submit Sample.refundServer Sample.pastedWorld)).
Proof.
  exact (C5_alternative_names_agree
           Sample.refundServer
           (respond (jsonResponse
                       (payload (map altRecord [Sample.refundMembers]))))
           Sample.pastedWorld [Sample.refundMembers]
           (jsonResponse Sample.refundPayload)
           (jsonResponse (payload (map altRecord [Sample.refundMembers])))
           eq_refl eq_refl eq_refl eq_refl eq_refl eq_refl eq_refl eq_refl
           eq_refl).
Defined.

(** C6: in a successful standard-mode response, the clause stored for a
    record whose category ([risk_level], else [severity]) is a non-empty
    string carries that string lower-cased, whatever the string is: it is
    not checked against high, medium and low. *)
Theorem C6_category_is_lowercased network (w : World) (data : value)
    (cs : list Clause) (items : list value) (i : nat) (clause : value)
    (s : string) :
  standardSuccess network w data cs ->
  get data "clauses" = Return (JArray items) ->
  nth_error items i = Some clause ->
  category clause = Return (JString s) ->
  nonEmpty s = true ->
  exists c,
    nth_error (results (state (submit network w))) i = Some c
    /\ riskLevel c = toLowerCase s.
Proof.
  intros S G Hn C Ne.
  destruct (submit_standard_success _ _ _ _ S) as (-> & _). cbn.
  destruct S as (_ & _ & r & _ & _ & _ & T).
  unfold transformResults in T. rewrite G in T. cbn in T.
  destruct (mapFrom_nth items 0 cs i clause T Hn) as (c & Hc & Tc).
  exists c. split; [exact Hc|].
  destruct (transformClause_returns clause (0 + i) s (category_string _ _ C Ne))
    as (c' & Tc' & L & _).
  congruence.
Qed.

Lemma C6_witness :
  exists c,
    nth_error (results (state (submit Sample.refundServer Sample.pastedWorld)))
      0 = Some c
    /\ riskLevel c = "high".
Proof.
  refine (C6_category_is_lowercased Sample.refundServer Sample.pastedWorld
            Sample.refundPayload [Sample.refundClause] [Sample.refundRecord]
            0 Sample.refundRecord "HIGH" _ eq_refl eq_refl eq_refl eq_refl).
  unfold standardSuccess. repeat split.
  exists (jsonResponse Sample.refundPayload). repeat split.
Defined.



(** ** The claims about clearing and file selection *)

(** C8, as the code has it: clear empties the selected file, the pasted text,
    the clause list and the audio handle, puts the upload progress to 0 and
    the playing flag to false, and pauses and rewinds the audio element when
    one is mounted.  The podcast flag, the active tab and the drag flag are
    kept, and so is the submission status: clear does not touch
    [isAnalyzing].  The handle is only dropped from the state: the blob URL
    store is as before.  Timers and the trace of effects are as before. *)
Theorem C8_clear_resets_all_but_mode_and_status (w : World) :
  state (exec handleClear w)
  = {| selectedFile := None;
       pastedText := "";
       isAnalyzing := isAnalyzing (state w);
       results := [];
       uploadProgress := 0;
       activeTab := activeTab (state w);
       isDragging := isDragging (state w);
       podcastMode := podcastMode (state w);
       audioUrl := None;
       isPlaying := false |}
  /\ audioRef (exec handleClear w)
     = option_map (fun a => {| src := src a; paused := true;
                               currentTime := S754_zero false |})
         (audioRef w)
  /\ objectURLs (exec handleClear w) = objectURLs w
  /\ intervals (exec handleClear w) = intervals w
  /\ trace (exec handleClear w) = trace w.
Proof.
  destruct w as [s a u i n t]. destruct a as [el|]; repeat split.
Qed.

(** C8 as stated fails: cleared while a request is in flight, the page still
    reports the submission as in flight, and the blob URL of the narration
    that was on display is still registered. *)
Lemma C8_counterexample :
  isAnalyzing (state Sample.inFlightWithAudio) = true
  /\ isAnalyzing (state (exec handleClear Sample.inFlightWithAudio)) = true
  /\ audioUrl (state (exec handleClear Sample.inFlightWithAudio)) = None
  /\ objectURLs (exec handleClear Sample.inFlightWithAudio)
     = [("blob:0", Sample.speech)].
Proof.
  repeat split.
Qed.

(** C9: the first file of a drop is selected, and the simulated upload
    started, when its declared type is the PDF, DOCX or plain-text media
    type, whatever its size, and a later submission uploads it as it is; a
    first file of any other declared type changes neither the selected file
    nor the upload progress nor the timers. *)
Theorem C9_drop_checks_type_not_size network (e : DragEvent) (w : World)
    (f : File) :
  nth_error (dataTransfer_files e) 0 = Some f ->
  (In (type f) [pdf_type; docx_type; plain_type] ->
   selectedFile (state (exec (handleDrop e) w)) = Some f
   /\ uploadProgress (state (exec (handleDrop e) w)) = 0%Z
   /\ intervals (exec (handleDrop e) w) = nextTimer w :: intervals w
   /\ exists req,
        fetches (trace (submit network (exec (handleDrop e) w)))
        = fetches (trace w) ++ [req]
        /\ body req = FormData [("file", f)])
  /\ (~ In (type f) [pdf_type; docx_type; plain_type] ->
      selectedFile (state (exec (handleDrop e) w)) = selectedFile (state w)
      /\ uploadProgress (state (exec (handleDrop e) w))
         = uploadProgress (state w)
      /\ intervals (exec (handleDrop e) w) = intervals w).
Proof.
  intros F.
  assert (In (type f) [pdf_type; docx_type; plain_type]
          <-> String.eqb (type f) pdf_type || String.eqb (type f) docx_type
              || String.eqb (type f) plain_type = true) as A.
  { cbn [In]. rewrite !orb_true_iff, !String.eqb_eq.
    split; intros; intuition (auto; congruence). }
  split; intros T.
  - apply A in T.
    assert (exec (handleDrop e) w
            = exec (preventDefault ;; setIsDragging false ;;
                    setSelectedFile (Some f) ;; simulateUpload) w) as E.
    { unfold exec, handleDrop. rewrite F, T. reflexivity. }
    rewrite E. repeat split.
    exists (requestOf (with_selectedFile (Some f) (state w))).
    split; [|reflexivity].
    rewrite submit_fetches by reflexivity.
    destruct w as [s a u i n t]. destruct s. cbn.
    rewrite fetches_app, app_nil_r. reflexivity.
  - assert (String.eqb (type f) pdf_type || String.eqb (type f) docx_type
            || String.eqb (type f) plain_type = false) as T'.
    { apply not_true_is_false. intros B. apply A in B. contradiction. }
    assert (exec (handleDrop e) w
            = exec (preventDefault ;; setIsDragging false) w) as E.
    { unfold exec, handleDrop. rewrite F, T'. reflexivity. }
    rewrite E. repeat split.
Qed.

Lemma C9_witness :
  (In pdf_type [pdf_type; docx_type; plain_type] ->
   selectedFile
     (state (exec (handleDrop {| dataTransfer_files := [Sample.contract] |})
               Sample.pastedWorld)) = Some Sample.contract
   /\ uploadProgress
        (state (exec (handleDrop {| dataTransfer_files := [Sample.contract] |})
                  Sample.pastedWorld)) = 0%Z
   /\ intervals
        (exec (handleDrop {| dataTransfer_files := [Sample.contract] |})
           Sample.pastedWorld) = [0]
   /\ exists req,
        fetches
          (trace (submit Sample.refundServer
                    (exec (handleDrop
                             {| dataTransfer_files := [Sample.contract] |})
                       Sample.pastedWorld)))
        = [req]
        /\ body req = FormData [("file", Sample.contract)])
  /\ (~ In pdf_type [pdf_type; docx_type; plain_type] ->
      selectedFile
        (state (exec (handleDrop {| dataTransfer_files := [Sample.contract] |})
                  Sample.pastedWorld)) = None
      /\ uploadProgress
           (state (exec (handleDrop
                           {| dataTransfer_files := [Sample.contract] |})
                     Sample.pastedWorld)) = 0%Z
      /\ intervals
           (exec (handleDrop {| dataTransfer_files := [Sample.contract] |})
              Sample.pastedWorld) = []).
Proof.
  exact (C9_drop_checks_type_not_size Sample.refundServer
           {| dataTransfer_files := [Sample.contract] |} Sample.pastedWorld
           Sample.contract eq_refl).
Defined.

(** C10: the change handler of the file input selects the first file of the
    event and starts the simulated upload, whatever the declared type and
    size of the file. *)
Theorem C10_change_selects_any_file (e : ChangeEvent) (w : World)
    (files : list File) (f : File) :
  target_files e = Some files ->
  nth_error files 0 = Some f ->
  selectedFile (state (exec (handleFileChange e) w)) = Some f
  /\ uploadProgress (state (exec (handleFileChange e) w)) = 0%Z
  /\ intervals (exec (handleFileChange e) w) = nextTimer w :: intervals w
  /\ nextTimer (exec (handleFileChange e) w) = S (nextTimer w).
Proof.
  intros T F. unfold exec, handleFileChange. rewrite T, F.
  repeat split.
Qed.

Lemma C10_witness :
  type Sample.picture = "image/png"
  /\ (10 * 1024 * 1024 < size Sample.picture)%N
  /\ selectedFile
       (state (exec (handleDrop {| dataTransfer_files := [Sample.picture] |})
                 Sample.pastedWorld)) = None
  /\ selectedFile
       (state (exec (handleFileChange
                       {| target_files := Some [Sample.picture] |})
                 Sample.pastedWorld)) = Some Sample.picture
  /\ uploadProgress
       (state (exec (handleFileChange
                       {| target_files := Some [Sample.picture] |})
                 Sample.pastedWorld)) = 0%Z
  /\ intervals
       (exec (handleFileChange {| target_files := Some [Sample.picture] |})
          Sample.pastedWorld) = [0]
  /\ nextTimer
       (exec (handleFileChange {| target_files := Some [Sample.picture] |})
          Sample.pastedWorld) = 1.
Proof.
  split; [reflexivity|]. split; [reflexivity|]. split; [reflexivity|].
  exact (C10_change_selects_any_file
           {| target_files := Some [Sample.picture] |} Sample.pastedWorld
           [Sample.picture] Sample.picture eq_refl eq_refl).
Defined.

(** ** The worked examples of the specification *)

(** Pasted text in standard mode, answered with the refund payload: one
    clause, its category lower-cased, the status idle, no alert. *)
Example refund_example :
  state (submit Sample.refundServer Sample.pastedWorld)
  = with_results [Sample.refundClause] (state Sample.pastedWorld)
  /\ alerts (trace (submit Sample.refundServer Sample.pastedWorld)) = [].
Proof.
  split; reflexivity.
Qed.

(** A file in narrated mode, answered with a binary stream: the handle is
    stored, the clause list is empty, the status is idle. *)
Example narration_example :
  audioUrl (state (submit Sample.speechServer Sample.narratedWithResults))
  = Some "blob:0"
  /\ objectURLs (submit Sample.speechServer Sample.narratedWithResults)
     = [("blob:0", Sample.speech)]
  /\ results (state (submit Sample.speechServer Sample.narratedWithResults))
     = []
  /\ isAnalyzing (state (submit Sample.speechServer Sample.narratedWithResults))
     = false.
Proof.
  repeat split.
Qed.

(** After a clear the audio element is unmounted by the next render, and the
    play button then does nothing. *)
Example playback_after_clear (r : AppState) :
  let w := exec handleClear Sample.standardWithAudio in
  let unmounted :=
    {| state := state w; audioRef := None; objectURLs := objectURLs w;
       intervals := intervals w; nextTimer := nextTimer w;
       trace := trace w |} in
  audioUrl (state w) = None
  /\ exec (togglePlayPause r) unmounted = unmounted.
Proof.
  split; reflexivity.
Qed.
